(** * Appointments API: a shallow embedding of [main.py]

    The service is a thin FastAPI router over one MongoDB collection.  The
    embedding follows the source top-down:

    - [Bson]: [bson.ObjectId], the twelve-byte primary key with its
      24-digit hexadecimal string form;
    - [Pymongo]: the collection, as a finite map from [_id] to document,
      with [insert_one], [find], [find_one], [update_one] and [delete_one];
    - [Models]: the pydantic models [AppointmentBase], [AppointmentCreate]
      and [Appointment], their validation and [dict()];
    - [Api]: the route handlers, written in a state-and-exception monad over
      the collection, and the request loop used to talk about the states the
      service can reach.

    The theorems come after all definitions. *)

From Stdlib Require Import NArith Lia Ascii String.
From stdpp Require Import gmap strings list fin_maps.

Local Open Scope N_scope.

(** ** bson.ObjectId *)

Module Bson.

(** An [ObjectId] is twelve bytes; it is kept as the 96-bit number those
    bytes spell, most significant byte first. *)
Abbreviation ObjectId := N (only parsing).

Definition ObjectId_modulus : N := 2 ^ 96.

(** [ObjectId()] with no argument: the driver draws the twelve bytes from
    the clock, a per-process random value and a counter.  The draw is an
    input of the model, reduced to twelve bytes. *)
Definition ObjectId_generate (seed : N) : ObjectId := seed mod ObjectId_modulus.

Definition hex_digit (d : N) : ascii :=
  match d with
  | 0 => "0" | 1 => "1" | 2 => "2" | 3 => "3" | 4 => "4" | 5 => "5"
  | 6 => "6" | 7 => "7" | 8 => "8" | 9 => "9" | 10 => "a" | 11 => "b"
  | 12 => "c" | 13 => "d" | 14 => "e" | _ => "f"
  end%char.

(** [bytes.fromhex] reads both cases. *)
Definition hex_value (c : ascii) : option N :=
  let n := N_of_ascii c in
  if (48 <=? n) && (n <=? 57) then Some (n - 48)
  else if (97 <=? n) && (n <=? 102) then Some (n - 87)
  else if (65 <=? n) && (n <=? 70) then Some (n - 55)
  else None.

(** The [k] low hexadecimal digits of [n], most significant first. *)
Fixpoint to_hex (k : nat) (n : N) : string :=
  match k with
  | O => EmptyString
  | S k' => String (hex_digit ((n / 16 ^ N.of_nat k') mod 16)) (to_hex k' n)
  end.

Fixpoint from_hex (s : string) (acc : N) : option N :=
  match s with
  | EmptyString => Some acc
  | String c s' =>
      match hex_value c with
      | Some d => from_hex s' (16 * acc + d)
      | None => None
      end
  end.

(** [str(oid)]: 24 lower-case hexadecimal digits. *)
Definition str (oid : ObjectId) : string := to_hex 24 oid.

(** [ObjectId(s)] for a [str] argument: [None] stands for the
    [InvalidId] exception, raised unless [s] is a 24-character
    hexadecimal string.  (A 24-character string with white space between
    digit pairs is outside this contract; every handler turns whatever it
    leads to into the same 404 as [InvalidId].) *)
Definition ObjectId_of_str (s : string) : option ObjectId :=
  if (String.length s =? 24)%nat then from_hex s 0 else None.

End Bson.

(** ** pymongo: one collection *)

Module Pymongo.
Import Bson.

(** Field values.  The service only ever writes strings and [None]
    (pydantic's [str] and [Optional[str]]), so these are the values a
    document holds. *)
Inductive value : Type :=
| VNone
| VStr (s : string).

#[global] Instance value_eq_dec : EqDecision value.
Proof. solve_decision. Defined.

(** A document without its [_id]; the [_id] is the key it is stored
    under, so the unique primary-key index holds by construction. *)
Abbreviation document := (gmap string value) (only parsing).
Abbreviation collection := (gmap N (gmap string value)) (only parsing).

Inductive exn : Type :=
| InvalidId
| ValidationError
| DuplicateKeyError
| TypeError
| HTTPException (status_code : N) (detail : string).

(** Python code over the collection: state passing, with a raised
    exception or a value as outcome.  Writes made before an exception
    stay. *)
Definition M (A : Type) : Type := collection -> (exn + A) * collection.

Definition ret {A} (a : A) : M A := fun c => (inr a, c).

Definition raise {A} (e : exn) : M A := fun c => (inl e, c).

Definition bind {A B} (m : M A) (k : A -> M B) : M B :=
  fun c =>
    match m c with
    | (inr a, c') => k a c'
    | (inl e, c') => (inl e, c')
    end.

(** [try: body  except: handler], with a bare [except]. *)
Definition try_except {A} (body handler : M A) : M A :=
  fun c =>
    match body c with
    | (inr a, c') => (inr a, c')
    | (inl _, c') => handler c'
    end.

Record InsertOneResult : Type := { inserted_id : ObjectId }.
Record UpdateResult : Type := { matched_count : N; modified_count : N }.
Record DeleteResult : Type := { deleted_count : N }.

(** [insert_one(doc)]: the driver adds a generated [_id] to a document
    that has none; the server refuses a key that is taken.  Failures of the
    driver itself (connection lost, document over the size limit) are
    outside this model: no property below says that a handler raises
    nothing but what is listed here. *)
Definition insert_one (seed : N) (doc : document) : M InsertOneResult :=
  fun c =>
    let oid := ObjectId_generate seed in
    match c !! oid with
    | Some _ => (inl DuplicateKeyError, c)
    | None => (inr {| inserted_id := oid |}, <[oid := doc]> c)
    end.

(** [find()]: every document, in the store's iteration order. *)
Definition find : M (list (ObjectId * document)) :=
  fun c => (inr (map_to_list c), c).

(** [find_one({"_id": oid})] *)
Definition find_one (oid : ObjectId) : M (option (ObjectId * document)) :=
  fun c => (inr (pair oid <$> c !! oid), c).

(** [{"$set": fields}] applied to a document: the listed fields take
    their new values, the others stay. *)
Definition set_fields (fields doc : document) : document := fields ∪ doc.

(** [update_one({"_id": oid}, {"$set": fields})]: a matched document
    that the update leaves as it was does not count as modified.  As for
    [insert_one], failures of the driver itself are outside this model; in
    a handler whose call sits in a [try] with a bare [except] they would
    come out as the 404 too. *)
Definition update_one (oid : ObjectId) (fields : document) : M UpdateResult :=
  fun c =>
    match c !! oid with
    | None => (inr {| matched_count := 0; modified_count := 0 |}, c)
    | Some doc =>
        let doc' := set_fields fields doc in
        if decide (doc' = doc)
        then (inr {| matched_count := 1; modified_count := 0 |}, c)
        else (inr {| matched_count := 1; modified_count := 1 |},
              <[oid := doc']> c)
    end.

(** [delete_one({"_id": oid})] *)
Definition delete_one (oid : ObjectId) : M DeleteResult :=
  fun c =>
    match c !! oid with
    | None => (inr {| deleted_count := 0 |}, c)
    | Some _ => (inr {| deleted_count := 1 |}, delete oid c)
    end.

End Pymongo.

Notation "'let*' x ':=' m 'in' k" := (Pymongo.bind m (fun x => k))
  (at level 10, x name, m at level 100, k at level 200, only parsing).

(** ** The pydantic models *)

Module Models.
Import Pymongo.

(** [class AppointmentBase(BaseModel)]; [AppointmentCreate] adds
    nothing to it. *)
Record AppointmentBase : Type := {
  name : string;
  email : string;
  service : string;
  date : string;
  time : string;
  topic : string;
  status : option string;
  zoom_link : option string
}.

Abbreviation AppointmentCreate := AppointmentBase (only parsing).

(** [class Appointment(AppointmentBase)] with [id: str], alias [_id]. *)
Record Appointment : Type := {
  base : AppointmentBase;
  id : string
}.

Definition default_status : option string := Some "Pending"%string.
Definition default_zoom_link : option string := None.

(** A field declared [str]: required, and [None] is refused. *)
Definition required_str (d : document) (k : string) : option string :=
  match d !! k with
  | Some (VStr s) => Some s
  | _ => None
  end.

(** A field declared [Optional[str] = default]. *)
Definition optional_str (d : document) (k : string) (default : option string)
  : option string :=
  match d !! k with
  | None => default
  | Some VNone => None
  | Some (VStr s) => Some s
  end.

(** [AppointmentBase] built from the keyword arguments [d]; [None] is
    pydantic's [ValidationError].
    Keys the model does not declare are ignored. *)
Definition AppointmentBase_validate (d : document) : option AppointmentBase :=
  match required_str d "name", required_str d "email",
        required_str d "service", required_str d "date",
        required_str d "time", required_str d "topic" with
  | Some n, Some e, Some s, Some dt, Some tm, Some tp =>
      Some {| name := n; email := e; service := s; date := dt; time := tm;
              topic := tp;
              status := optional_str d "status" default_status;
              zoom_link := optional_str d "zoom_link" default_zoom_link |}
  | _, _, _, _, _, _ => None
  end.

(** [Appointment] built from a [doc] whose [_id] is the string [i]. *)
Definition Appointment_validate (i : string) (d : document) : option Appointment :=
  match AppointmentBase_validate d with
  | Some b => Some {| base := b; id := i |}
  | None => None
  end.

Definition optional_value (o : option string) : value :=
  match o with
  | Some s => VStr s
  | None => VNone
  end.

(** [appointment.dict()] *)
Definition dict (a : AppointmentBase) : document :=
  <["name" := VStr (name a)]>
  (<["email" := VStr (email a)]>
  (<["service" := VStr (service a)]>
  (<["date" := VStr (date a)]>
  (<["time" := VStr (time a)]>
  (<["topic" := VStr (topic a)]>
  (<["status" := optional_value (status a)]>
  (<["zoom_link" := optional_value (zoom_link a)]> ∅))))))).

(** The keys [dict()] writes: the fields the model declares. *)
Definition field_names : list string :=
  ["name"; "email"; "service"; "date"; "time"; "topic"; "status";
   "zoom_link"]%string.

End Models.

(** ** The routes *)

Module Api.
Import Bson Pymongo Models.

(** [HTTPException(status_code=404, detail="Appointment not found")] *)
Definition NotFound : exn := HTTPException 404 "Appointment not found".

Definition not_found {A} : M A := raise NotFound.

(** [ObjectId(appointment_id)] *)
Definition ObjectId_new (appointment_id : string) : M ObjectId :=
  match ObjectId_of_str appointment_id with
  | Some oid => ret oid
  | None => raise InvalidId
  end.

(** [Appointment] built from the document's fields. *)
Definition Appointment_new (i : string) (doc : document) : M Appointment :=
  match Appointment_validate i doc with
  | Some a => ret a
  | None => raise ValidationError
  end.

(** [document_to_appointment(doc)]: the [_id] is replaced by its string
    form and the model is built from the document. *)
Definition document_to_appointment (doc : ObjectId * document) : M Appointment :=
  Appointment_new (str (fst doc)) (snd doc).

(** [POST /appointments/] *)
Definition create_appointment (seed : N) (appointment : AppointmentCreate)
  : M Appointment :=
  let doc := dict appointment in
  let* result := insert_one seed doc in
  Appointment_new (str (inserted_id result)) doc.

(** The loop of [get_appointments]: each document is converted and
    appended in turn. *)
Fixpoint convert_all (docs : list (ObjectId * document))
                     (appointments : list Appointment) : M (list Appointment) :=
  match docs with
  | [] => ret appointments
  | doc :: docs' =>
      let* a := document_to_appointment doc in
      convert_all docs' (appointments ++ [a])
  end.

(** [GET /appointments/] *)
Definition get_appointments : M (list Appointment) :=
  let* docs := find in
  convert_all docs [].

(** [GET /appointments/{appointment_id}] *)
Definition get_appointment (appointment_id : string) : M Appointment :=
  try_except
    (let* oid := ObjectId_new appointment_id in
     let* doc := find_one oid in
     match doc with
     | None => not_found
     | Some d => document_to_appointment d
     end)
    not_found.

(** [PUT /appointments/{appointment_id}] *)
Definition update_appointment (appointment_id : string)
                              (appointment : AppointmentCreate) : M Appointment :=
  try_except
    (let doc := dict appointment in
     let* oid := ObjectId_new appointment_id in
     let* result := update_one oid doc in
     if modified_count result =? 0 then not_found
     else
       let* oid' := ObjectId_new appointment_id in
       let* updated_doc := find_one oid' in
       match updated_doc with
       | None => raise TypeError
       | Some d => document_to_appointment d
       end)
    not_found.

Definition message (text : string) : gmap string string :=
  {[ "message"%string := text ]}.

(** [DELETE /appointments/{appointment_id}] *)
Definition delete_appointment (appointment_id : string) : M (gmap string string) :=
  try_except
    (let* oid := ObjectId_new appointment_id in
     let* result := delete_one oid in
     if deleted_count result =? 0 then not_found
     else ret (message "Appointment deleted successfully"))
    not_found.

(** [PUT /appointments/{appointment_id}/approve] *)
Definition approve_appointment (appointment_id : string) : M (gmap string string) :=
  try_except
    (let* oid := ObjectId_new appointment_id in
     let* result := update_one oid {[ "status"%string := VStr "Approved" ]} in
     if modified_count result =? 0 then not_found
     else ret (message "Appointment approved successfully"))
    not_found.

(** [PUT /appointments/{appointment_id}/zoom-link] *)
Definition set_zoom_link (appointment_id : string) (zoom_link : string)
  : M (gmap string string) :=
  try_except
    (let* oid := ObjectId_new appointment_id in
     let* result := update_one oid {[ "zoom_link"%string := VStr zoom_link ]} in
     if modified_count result =? 0 then not_found
     else ret (message "Zoom link added successfully"))
    not_found.

(** [GET /] *)
Definition root : gmap string string :=
  <[ "status"%string := "ok"%string ]>
    (message "Appointments API is running").

(** *** The requests the service answers

    A JSON body is a document; FastAPI builds the [AppointmentCreate]
    from it before the handler runs and answers 422 itself when that
    fails.  An exception that leaves a handler becomes the response:
    an [HTTPException] with its own status code, anything else 500. *)

Inductive request : Type :=
| POST_appointments (seed : N) (body : document)
| GET_appointments
| GET_appointment (appointment_id : string)
| PUT_appointment (appointment_id : string) (body : document)
| DELETE_appointment (appointment_id : string)
| PUT_approve (appointment_id : string)
| PUT_zoom_link (appointment_id : string) (zoom_link : string).

Inductive response_body : Type :=
| One (a : Appointment)
| Many (l : list Appointment)
| Message (m : gmap string string).

Inductive response : Type :=
| Ok (body : response_body)
| Error (status_code : N) (detail : string).

Definition respond {A} (wrap : A -> response_body) (m : M A)
  : collection -> response * collection :=
  fun c =>
    match m c with
    | (inr a, c') => (Ok (wrap a), c')
    | (inl (HTTPException code detail), c') => (Error code detail, c')
    | (inl _, c') => (Error 500 "Internal Server Error", c')
    end.

Definition with_body (body : document)
                     (handler : AppointmentCreate -> M Appointment)
  : collection -> response * collection :=
  match AppointmentBase_validate body with
  | Some appointment => respond One (handler appointment)
  | None => fun c => (Error 422 "Unprocessable Entity", c)
  end.

Definition serve (r : request) : collection -> response * collection :=
  match r with
  | POST_appointments seed body => with_body body (create_appointment seed)
  | GET_appointments => respond Many get_appointments
  | GET_appointment i => respond One (get_appointment i)
  | PUT_appointment i body => with_body body (update_appointment i)
  | DELETE_appointment i => respond Message (delete_appointment i)
  | PUT_approve i => respond Message (approve_appointment i)
  | PUT_zoom_link i z => respond Message (set_zoom_link i z)
  end.

(** The collection after a run of requests. *)
Definition serve_all (rs : list request) (c : collection) : collection :=
  foldl (fun c r => snd (serve r c)) c rs.

(** The collections the service can have built from an empty one. *)
Definition reachable (c : collection) : Prop :=
  exists rs, c = serve_all rs ∅.

(** *** Notions the properties are stated with *)

(** What the store reports to a handler that updates by identifier: the
    [modified_count] of the [UpdateResult], once the handler has got as
    far as calling [update_one]; nothing when [ObjectId] raised first. *)
Definition reported_modified_count (appointment_id : string)
                                   (fields : document) (c : collection)
  : option N :=
  match ObjectId_of_str appointment_id with
  | Some oid =>
      match fst (update_one oid fields c) with
      | inr result => Some (modified_count result)
      | inl _ => None
      end
  | None => None
  end.

(** Every document of the collection builds an [Appointment]. *)
Definition appointments_only (c : collection) : Prop :=
  map_Forall (fun _ doc => is_Some (AppointmentBase_validate doc)) c.

(** The request inserts under the key [oid]. *)
Definition inserts_at (oid : ObjectId) (r : request) : Prop :=
  match r with
  | POST_appointments seed _ => ObjectId_generate seed = oid
  | _ => False
  end.

(** A client posting one appointment after the other; the records
    returned, in order, when every post succeeds. *)
Fixpoint create_all (posts : list (N * AppointmentCreate))
  : M (list Appointment) :=
  match posts with
  | [] => ret []
  | (seed, appointment) :: posts' =>
      let* a := create_appointment seed appointment in
      let* l := create_all posts' in
      ret (a :: l)
  end.

End Api.

(** ** Sample data *)

Module Sample.
Import Bson Pymongo Models Api.

(** The body of the specification's example post: the six required
    fields, neither status nor meeting link. *)
Definition intro_body : document :=
  <["name" := VStr "A"]>
  (<["email" := VStr "a@x.com"]>
  (<["service" := VStr "Consult"]>
  (<["date" := VStr "2024-01-01"]>
  (<["time" := VStr "10:00"]>
  (<["topic" := VStr "Intro"]> ∅))))).

(** The model pydantic builds from it. *)
Definition intro : AppointmentCreate :=
  {| name := "A"; email := "a@x.com"; service := "Consult";
     date := "2024-01-01"; time := "10:00"; topic := "Intro";
     status := Some "Pending"%string; zoom_link := None |}.

(** A body that gives all eight fields. *)
Definition followup_body : document :=
  <["name" := VStr "B"]>
  (<["email" := VStr "b@x.com"]>
  (<["service" := VStr "Review"]>
  (<["date" := VStr "2024-02-02"]>
  (<["time" := VStr "11:30"]>
  (<["topic" := VStr "Follow-up"]>
  (<["status" := VStr "Approved"]>
  (<["zoom_link" := VStr "https://zoom.example/j/1"]> ∅))))))).

Definition followup : AppointmentCreate :=
  {| name := "B"; email := "b@x.com"; service := "Review";
     date := "2024-02-02"; time := "11:30"; topic := "Follow-up";
     status := Some "Approved"%string;
     zoom_link := Some "https://zoom.example/j/1"%string |}.

Definition key : ObjectId := 7.
Definition key_str : string := "000000000000000000000007".

(** A collection with the one appointment [intro], stored under [key]. *)
Definition one_pending : collection := {[ key := dict intro ]}.

(** The same after it has been approved. *)
Definition one_approved : collection :=
  {[ key := <["status" := VStr "Approved"]> (dict intro) ]}.



(** A document that lacks the required fields, next to a good one. *)
Definition with_stray : collection :=
  <[ 9 := {[ "status"%string := VStr "Pending" ]} ]> one_pending.
Definition stray_key_str : string := "000000000000000000000009".

End Sample.

(** * Properties *)

Import Bson Pymongo Models Api.

(** Case analysis on membership in [field_names]. *)
Ltac split_fields H :=
  unfold field_names in H;
  repeat (apply elem_of_cons in H as [-> | H]);
  [ .. | apply elem_of_nil in H; destruct H ].

(** Runs the monad of a handler body. *)
Ltac run_handler :=
  cbv beta iota zeta delta
    [try_except bind ret raise not_found ObjectId_new find_one update_one
     delete_one insert_one document_to_appointment Appointment_new
     Appointment_validate inserted_id modified_count deleted_count];
  cbn [fst snd fmap option_fmap option_map N.eqb Pos.eqb].

Lemma hex_value_digit d : d < 16 -> Bson.hex_value (Bson.hex_digit d) = Some d.
Proof.
  intros Hd.
  destruct d as [|p]; [reflexivity|].
  do 4 (destruct p as [p|p|]; try reflexivity); lia.
Qed.

Lemma from_hex_to_hex k n acc :
  Bson.from_hex (Bson.to_hex k n) acc
  = Some (acc * 16 ^ N.of_nat k + n mod 16 ^ N.of_nat k).
Proof.
  revert acc. induction k as [|k IH]; intros acc.
  - cbn [Bson.to_hex Bson.from_hex]. f_equal.
    change (N.of_nat 0) with 0. rewrite N.pow_0_r, N.mod_1_r. lia.
  - cbn [Bson.to_hex Bson.from_hex].
    rewrite hex_value_digit by (apply N.mod_lt; lia).
    rewrite IH. f_equal.
    rewrite Nat2N.inj_succ, N.pow_succ_r'.
    set (b := 16 ^ N.of_nat k).
    assert (Hb : b <> 0) by (apply N.pow_nonzero; lia).
    rewrite (N.mul_comm 16 b), N.Div0.mod_mul_r.
    lia.
Qed.

Lemma length_to_hex k n : String.length (Bson.to_hex k n) = k.
Proof. induction k as [|k IH]; cbn; [reflexivity | now rewrite IH]. Qed.

Lemma ObjectId_of_str_str oid :
  Bson.ObjectId_of_str (Bson.str oid) = Some (oid mod Bson.ObjectId_modulus).
Proof.
  unfold Bson.ObjectId_of_str, Bson.str.
  rewrite length_to_hex. cbn [Nat.eqb].
  rewrite from_hex_to_hex. f_equal.
Qed.

(** ** The models and their dictionaries *)

Lemma dict_lookup_field (a : AppointmentBase) k :
  k ∈ field_names -> is_Some (dict a !! k).
Proof. intros H. split_fields H; eexists; reflexivity. Qed.

Lemma dict_lookup_other (a : AppointmentBase) k :
  k ∉ field_names -> dict a !! k = None.
Proof.
  intros H. unfold field_names in H.
  repeat (apply not_elem_of_cons in H as [? H]).
  unfold dict. rewrite !lookup_insert_ne by congruence. apply lookup_empty.
Qed.

Lemma optional_str_value k (a : option string) (d : gmap string value) dflt :
  d !! k = Some (optional_value a) -> optional_str d k dflt = a.
Proof. unfold optional_str. intros ->. destruct a; reflexivity. Qed.

Lemma validate_dict (a : AppointmentBase) : AppointmentBase_validate (dict a) = Some a.
Proof. destruct a as [n e s d t tp [st|] [z|]]; reflexivity. Qed.

Lemma validate_agree (d d' : gmap string value) :
  (forall k, k ∈ field_names -> d !! k = d' !! k) ->
  AppointmentBase_validate d = AppointmentBase_validate d'.
Proof.
  intros H. unfold AppointmentBase_validate, required_str, optional_str.
  rewrite !H by (unfold field_names; set_solver). reflexivity.
Qed.

Lemma set_fields_lookup_field (a : AppointmentBase) (doc : gmap string value) k :
  k ∈ field_names -> set_fields (dict a) doc !! k = dict a !! k.
Proof.
  intros H. unfold set_fields. apply lookup_union_l'. now apply dict_lookup_field.
Qed.

Lemma set_fields_lookup_other (a : AppointmentBase) (doc : gmap string value) k :
  k ∉ field_names -> set_fields (dict a) doc !! k = doc !! k.
Proof.
  intros H. unfold set_fields. apply lookup_union_r. now apply dict_lookup_other.
Qed.

Lemma validate_set_fields (a : AppointmentBase) (doc : gmap string value) :
  AppointmentBase_validate (set_fields (dict a) doc) = Some a.
Proof.
  rewrite <- (validate_dict a). apply validate_agree.
  intros k Hk. now apply set_fields_lookup_field.
Qed.

(** ** What each handler computes *)

Lemma create_appointment_eq seed (a : AppointmentCreate) (c : gmap N (gmap string value)) :
  create_appointment seed a c =
  match c !! ObjectId_generate seed with
  | Some _ => (inl DuplicateKeyError, c)
  | None => (inr {| base := a; id := str (ObjectId_generate seed) |},
             <[ObjectId_generate seed := dict a]> c)
  end.
Proof.
  unfold create_appointment. run_handler.
  destruct (c !! ObjectId_generate seed); [reflexivity|].
  cbn [inserted_id]. now rewrite validate_dict.
Qed.

Lemma get_appointment_eq appointment_id (c : gmap N (gmap string value)) :
  get_appointment appointment_id c =
  (match ObjectId_of_str appointment_id with
   | Some oid =>
       match c !! oid with
       | Some doc =>
           match AppointmentBase_validate doc with
           | Some b => inr {| base := b; id := str oid |}
           | None => inl NotFound
           end
       | None => inl NotFound
       end
   | None => inl NotFound
   end, c).
Proof.
  unfold get_appointment. run_handler.
  destruct (ObjectId_of_str appointment_id) as [oid|]; [|reflexivity].
  destruct (c !! oid) as [doc|]; [|reflexivity]. cbn.
  destruct (AppointmentBase_validate doc); reflexivity.
Qed.

Lemma update_appointment_eq appointment_id (a : AppointmentCreate)
    (c : gmap N (gmap string value)) :
  update_appointment appointment_id a c =
  match ObjectId_of_str appointment_id with
  | Some oid =>
      match c !! oid with
      | Some doc =>
          if decide (set_fields (dict a) doc = doc) then (inl NotFound, c)
          else (inr {| base := a; id := str oid |},
                <[oid := set_fields (dict a) doc]> c)
      | None => (inl NotFound, c)
      end
  | None => (inl NotFound, c)
  end.
Proof.
  unfold update_appointment. run_handler.
  destruct (ObjectId_of_str appointment_id) as [oid|]; [|reflexivity].
  destruct (c !! oid) as [doc|]; [|reflexivity].
  destruct (decide (set_fields (dict a) doc = doc)); [reflexivity|].
  cbn. rewrite lookup_insert_eq. cbn. now rewrite validate_set_fields.
Qed.

Lemma delete_appointment_eq appointment_id (c : gmap N (gmap string value)) :
  delete_appointment appointment_id c =
  match ObjectId_of_str appointment_id with
  | Some oid =>
      match c !! oid with
      | Some _ => (inr (message "Appointment deleted successfully"), delete oid c)
      | None => (inl NotFound, c)
      end
  | None => (inl NotFound, c)
  end.
Proof.
  unfold delete_appointment. run_handler.
  destruct (ObjectId_of_str appointment_id) as [oid|]; [|reflexivity].
  destruct (c !! oid); reflexivity.
Qed.

Lemma approve_appointment_eq appointment_id (c : gmap N (gmap string value)) :
  approve_appointment appointment_id c =
  match ObjectId_of_str appointment_id with
  | Some oid =>
      match c !! oid with
      | Some doc =>
          let doc' := set_fields {[ "status"%string := VStr "Approved" ]} doc in
          if decide (doc' = doc) then (inl NotFound, c)
          else (inr (message "Appointment approved successfully"), <[oid := doc']> c)
      | None => (inl NotFound, c)
      end
  | None => (inl NotFound, c)
  end.
Proof.
  unfold approve_appointment. run_handler.
  destruct (ObjectId_of_str appointment_id) as [oid|]; [|reflexivity].
  destruct (c !! oid) as [doc|]; [|reflexivity].
  cbn. destruct (decide _); reflexivity.
Qed.

Lemma set_zoom_link_eq appointment_id zoom_link (c : gmap N (gmap string value)) :
  set_zoom_link appointment_id zoom_link c =
  match ObjectId_of_str appointment_id with
  | Some oid =>
      match c !! oid with
      | Some doc =>
          let doc' := set_fields {[ "zoom_link"%string := VStr zoom_link ]} doc in
          if decide (doc' = doc) then (inl NotFound, c)
          else (inr (message "Zoom link added successfully"), <[oid := doc']> c)
      | None => (inl NotFound, c)
      end
  | None => (inl NotFound, c)
  end.
Proof.
  unfold set_zoom_link. run_handler.
  destruct (ObjectId_of_str appointment_id) as [oid|]; [|reflexivity].
  destruct (c !! oid) as [doc|]; [|reflexivity].
  cbn. destruct (decide _); reflexivity.
Qed.

Lemma ObjectId_of_str_generate seed :
  ObjectId_of_str (str (ObjectId_generate seed)) = Some (ObjectId_generate seed).
Proof.
  rewrite ObjectId_of_str_str. unfold ObjectId_generate.
  now rewrite N.Div0.mod_mod.
Qed.

Lemma str_nonempty oid : str oid <> EmptyString.
Proof.
  intros H. apply (f_equal String.length) in H.
  unfold str in H. rewrite length_to_hex in H. discriminate H.
Qed.

Lemma convert_all_eq (docs : list (N * gmap string value)) acc
    (c : gmap N (gmap string value)) :
  convert_all docs acc c =
  match mapM (fun doc => Appointment_validate (str doc.1) doc.2) docs with
  | Some l => (inr (acc ++ l), c)
  | None => (inl ValidationError, c)
  end.
Proof.
  revert acc. induction docs as [|doc docs IH]; intros acc.
  - cbn. unfold ret. now rewrite app_nil_r.
  - cbn [convert_all mapM]. run_handler.
    destruct (AppointmentBase_validate doc.2) as [b|]; [|reflexivity].
    rewrite IH. cbn.
    destruct (mapM _ docs) as [l|]; [|reflexivity].
    cbn. now rewrite <- app_assoc.
Qed.

Lemma get_appointments_eq (c : gmap N (gmap string value)) :
  get_appointments c =
  match mapM (fun doc => Appointment_validate (str doc.1) doc.2) (map_to_list c) with
  | Some l => (inr l, c)
  | None => (inl ValidationError, c)
  end.
Proof.
  unfold get_appointments, find, bind. apply convert_all_eq.
Qed.

Lemma get_appointments_store (c : gmap N (gmap string value)) :
  snd (get_appointments c) = c.
Proof. rewrite get_appointments_eq. now destruct (mapM _ _). Qed.

(** ** The store after a request *)

Lemma snd_respond {A} (wrap : A -> response_body) (m : M A)
    (c : gmap N (gmap string value)) :
  snd (respond wrap m c) = snd (m c).
Proof. unfold respond. destruct (m c) as [[[]|] c']; reflexivity. Qed.

Lemma snd_with_body body (handler : AppointmentCreate -> M Appointment)
    (c : gmap N (gmap string value)) :
  snd (with_body body handler c) =
  match AppointmentBase_validate body with
  | Some a => snd (handler a c)
  | None => c
  end.
Proof.
  unfold with_body. destruct (AppointmentBase_validate body); [|reflexivity].
  apply snd_respond.
Qed.

(** A key with no document stays without one until a post draws it. *)
Lemma serve_absent r (c : gmap N (gmap string value)) oid :
  c !! oid = None -> ~ inserts_at oid r -> snd (serve r c) !! oid = None.
Proof.
  intros Hc Hr. destruct r as [seed body| |i|i body|i|i|i z]; cbn [serve].
  - rewrite snd_with_body. destruct (AppointmentBase_validate body); [|exact Hc].
    rewrite create_appointment_eq.
    destruct (c !! ObjectId_generate seed); [exact Hc|].
    cbn. rewrite lookup_insert_ne; [exact Hc | exact Hr].
  - rewrite snd_respond, get_appointments_store. exact Hc.
  - rewrite snd_respond, get_appointment_eq. exact Hc.
  - rewrite snd_with_body. destruct (AppointmentBase_validate body); [|exact Hc].
    rewrite update_appointment_eq.
    destruct (ObjectId_of_str i) as [o|]; [|exact Hc].
    destruct (c !! o) eqn:Ho; [|exact Hc].
    destruct (decide _); [exact Hc|].
    cbn. rewrite lookup_insert_ne; [exact Hc | congruence].
  - rewrite snd_respond, delete_appointment_eq.
    destruct (ObjectId_of_str i) as [o|]; [|exact Hc].
    destruct (c !! o) eqn:Ho; [|exact Hc].
    cbn. rewrite lookup_delete_ne; [exact Hc | congruence].
  - rewrite snd_respond, approve_appointment_eq.
    destruct (ObjectId_of_str i) as [o|]; [|exact Hc].
    destruct (c !! o) eqn:Ho; [|exact Hc].
    cbn zeta. destruct (decide _); [exact Hc|].
    cbn. rewrite lookup_insert_ne; [exact Hc | congruence].
  - rewrite snd_respond, set_zoom_link_eq.
    destruct (ObjectId_of_str i) as [o|]; [|exact Hc].
    destruct (c !! o) eqn:Ho; [|exact Hc].
    cbn zeta. destruct (decide _); [exact Hc|].
    cbn. rewrite lookup_insert_ne; [exact Hc | congruence].
Qed.

Lemma serve_all_absent rs (c : gmap N (gmap string value)) oid :
  c !! oid = None -> Forall (fun r => ~ inserts_at oid r) rs ->
  serve_all rs c !! oid = None.
Proof.
  intros Hc Hrs. revert c Hc.
  induction Hrs as [|r rs Hr _ IH]; intros c Hc; [exact Hc|].
  cbn. apply IH. now apply serve_absent.
Qed.

(** ** Get by identifier *)

(** C4. [get_appointment] answers [HTTPException(404, "Appointment not
    found")] when the identifier is not a valid [ObjectId] string and when
    no document has that identifier, with the very same exception in both
    cases; it leaves the collection as it was, and no exception other than
    that one (so no response other than that 404) ever leaves it. *)
Theorem get_appointment_not_found (c : gmap N (gmap string value)) appointment_id :
  (ObjectId_of_str appointment_id = None ->
   get_appointment appointment_id c
   = (inl (HTTPException 404 "Appointment not found"), c))
  /\ (forall oid, ObjectId_of_str appointment_id = Some oid -> c !! oid = None ->
      get_appointment appointment_id c
      = (inl (HTTPException 404 "Appointment not found"), c))
  /\ (forall e, fst (get_appointment appointment_id c) = inl e ->
      e = HTTPException 404 "Appointment not found")
  /\ (forall code detail,
      fst (serve (GET_appointment appointment_id) c) = Error code detail ->
      code = 404 /\ detail = "Appointment not found"%string).
Proof.
  assert (Herr : forall e, fst (get_appointment appointment_id c) = inl e ->
                           e = NotFound).
  { intros e. rewrite get_appointment_eq. cbn [fst].
    destruct (ObjectId_of_str appointment_id) as [oid|]; [|congruence].
    destruct (c !! oid) as [doc|]; [|congruence].
    destruct (AppointmentBase_validate doc); congruence. }
  split; [|split; [|split]].
  - intros H. rewrite get_appointment_eq, H. reflexivity.
  - intros oid H Hc. rewrite get_appointment_eq, H, Hc. reflexivity.
  - exact Herr.
  - intros code detail. cbn [serve]. unfold respond.
    destruct (get_appointment appointment_id c) as [[e|a] c'];
      [|discriminate].
    rewrite (Herr e eq_refl). cbn. intros [= <- <-]. now split.
Qed.

(** ** Create, then get *)

(** C5. A record created under a fresh key and fetched straight away by
    the identifier that [create_appointment] returned comes back equal to
    the record returned by the create: same name, email, service, date,
    time, topic, status and meeting link (those of the payload), same
    identifier. *)
Theorem create_then_get_roundtrip seed (appointment : AppointmentCreate)
    (c : gmap N (gmap string value)) :
  c !! ObjectId_generate seed = None ->
  exists a,
    fst (create_appointment seed appointment c) = inr a
    /\ base a = appointment
    /\ fst (get_appointment (id a) (snd (create_appointment seed appointment c)))
       = inr a.
Proof.
  intros Hfresh. rewrite create_appointment_eq, Hfresh. cbn [fst snd].
  eexists. split; [reflexivity|]. split; [reflexivity|].
  cbn [id]. rewrite get_appointment_eq, ObjectId_of_str_generate.
  rewrite lookup_insert_eq, validate_dict. reflexivity.
Qed.

Lemma create_then_get_roundtrip_witness :
  exists a,
    fst (create_appointment 8 Sample.followup Sample.one_pending) = inr a
    /\ base a = Sample.followup
    /\ fst (get_appointment (id a)
              (snd (create_appointment 8 Sample.followup Sample.one_pending)))
       = inr a.
Proof.
  apply (create_then_get_roundtrip 8 Sample.followup Sample.one_pending).
  reflexivity.
Defined.

(** ** Delete by identifier *)

(** C8. When a document with the identifier exists, [delete_appointment]
    succeeds and removes exactly that document; fetching the same
    identifier afterwards answers 404, at once and after any further
    requests, as long as no post draws that very key again.  When nothing
    is removed, which is the case exactly when the identifier is malformed
    or matches no document, the delete itself answers 404. *)
Theorem delete_appointment_removes (c : gmap N (gmap string value)) appointment_id :
  (forall oid doc,
     ObjectId_of_str appointment_id = Some oid -> c !! oid = Some doc ->
     delete_appointment appointment_id c
     = (inr (message "Appointment deleted successfully"), delete oid c)
     /\ fst (get_appointment appointment_id
               (snd (delete_appointment appointment_id c)))
        = inl (HTTPException 404 "Appointment not found")
     /\ forall rs, Forall (fun r => ~ inserts_at oid r) rs ->
        fst (get_appointment appointment_id
               (serve_all rs (snd (delete_appointment appointment_id c))))
        = inl (HTTPException 404 "Appointment not found"))
  /\ (snd (delete_appointment appointment_id c) = c <->
      ObjectId_of_str appointment_id = None
      \/ exists oid, ObjectId_of_str appointment_id = Some oid /\ c !! oid = None)
  /\ (snd (delete_appointment appointment_id c) = c ->
      fst (delete_appointment appointment_id c)
      = inl (HTTPException 404 "Appointment not found")).
Proof.
  rewrite delete_appointment_eq.
  destruct (ObjectId_of_str appointment_id) as [oid|] eqn:Hid.
  - destruct (c !! oid) as [doc|] eqn:Hc; cbn [fst snd].
    + assert (Hne : delete oid c <> c).
      { intros H. apply (f_equal (fun m => m !! oid)) in H.
        rewrite lookup_delete_eq, Hc in H. discriminate. }
      split; [|split].
      * intros o d [= <-] _. split; [reflexivity|]. split.
        -- rewrite get_appointment_eq, Hid, lookup_delete_eq. reflexivity.
        -- intros rs Hrs. rewrite get_appointment_eq, Hid. cbn [fst].
           rewrite serve_all_absent; [reflexivity | apply lookup_delete_eq | exact Hrs].
      * split; [intros H; contradiction|].
        intros [H | (o & [= <-] & H)]; congruence.
      * intros H. contradiction.
    + split; [|split].
      * intros o d [= <-] H. congruence.
      * split; [|reflexivity]. intros _. right. eauto.
      * reflexivity.
  - cbn [fst snd]. split; [|split].
    + intros o d H. discriminate.
    + split; [|reflexivity]. intros _. now left.
    + reflexivity.
Qed.

(** ** Request bodies *)

Lemma validate_inv (body : gmap string value) (a : AppointmentBase) :
  AppointmentBase_validate body = Some a ->
  body !! "name"%string = Some (VStr (name a))
  /\ body !! "email"%string = Some (VStr (email a))
  /\ body !! "service"%string = Some (VStr (service a))
  /\ body !! "date"%string = Some (VStr (date a))
  /\ body !! "time"%string = Some (VStr (time a))
  /\ body !! "topic"%string = Some (VStr (topic a))
  /\ status a = optional_str body "status" default_status
  /\ zoom_link a = optional_str body "zoom_link" default_zoom_link.
Proof.
  unfold AppointmentBase_validate, required_str.
  destruct (body !! "name"%string) as [[|n]|]; try discriminate.
  destruct (body !! "email"%string) as [[|e]|]; try discriminate.
  destruct (body !! "service"%string) as [[|s]|]; try discriminate.
  destruct (body !! "date"%string) as [[|d]|]; try discriminate.
  destruct (body !! "time"%string) as [[|t]|]; try discriminate.
  destruct (body !! "topic"%string) as [[|tp]|]; try discriminate.
  intros [= <-]. cbn. repeat split.
Qed.

Lemma optional_value_str (body : gmap string value) k dflt :
  is_Some (body !! k) ->
  Some (optional_value (optional_str body k dflt)) = body !! k.
Proof.
  unfold optional_str. intros [v ->]. destruct v; reflexivity.
Qed.

(** The model built from a body writes back every field the body gave. *)
Lemma dict_of_body (body : gmap string value) (a : AppointmentBase) k :
  AppointmentBase_validate body = Some a ->
  k ∈ field_names -> is_Some (body !! k) -> dict a !! k = body !! k.
Proof.
  intros Hv Hk Hs.
  destruct (validate_inv _ _ Hv) as (Hn & He & Hsv & Hd & Ht & Htp & Hst & Hz).
  split_fields Hk.
  - now rewrite Hn.
  - now rewrite He.
  - now rewrite Hsv.
  - now rewrite Hd.
  - now rewrite Ht.
  - now rewrite Htp.
  - rewrite <- (optional_value_str body "status" default_status Hs), <- Hst.
    reflexivity.
  - rewrite <- (optional_value_str body "zoom_link" default_zoom_link Hs), <- Hz.
    reflexivity.
Qed.

(** ** Update by identifier *)

Lemma update_appointment_store appointment_id (a : AppointmentCreate)
    (c : gmap N (gmap string value)) oid doc :
  ObjectId_of_str appointment_id = Some oid -> c !! oid = Some doc ->
  snd (update_appointment appointment_id a c)
  = <[oid := set_fields (dict a) doc]> c.
Proof.
  intros Hid Hc. rewrite update_appointment_eq, Hid, Hc.
  destruct (decide _) as [E|]; [|reflexivity].
  cbn. rewrite E. symmetry. now apply insert_id.
Qed.

Lemma update_appointment_result appointment_id (a : AppointmentCreate)
    (c : gmap N (gmap string value)) oid doc :
  ObjectId_of_str appointment_id = Some oid -> c !! oid = Some doc ->
  (fst (update_appointment appointment_id a c) = inl NotFound
   /\ set_fields (dict a) doc = doc)
  \/ (fst (update_appointment appointment_id a c)
      = inr {| base := a; id := str oid |}
      /\ set_fields (dict a) doc <> doc).
Proof.
  intros Hid Hc. rewrite update_appointment_eq, Hid, Hc.
  destruct (decide _); [left | right]; now split.
Qed.

Lemma reported_modified_count_zero appointment_id (fields : gmap string value)
    (c : gmap N (gmap string value)) :
  reported_modified_count appointment_id fields c = Some 0 <->
  exists oid, ObjectId_of_str appointment_id = Some oid
    /\ match c !! oid with
       | Some doc => set_fields fields doc = doc
       | None => True
       end.
Proof.
  unfold reported_modified_count, update_one.
  destruct (ObjectId_of_str appointment_id) as [oid|].
  - destruct (c !! oid) as [doc|] eqn:Hc.
    + destruct (decide _) as [E|E]; cbn.
      * split; [intros _; exists oid; now rewrite Hc | reflexivity].
      * split; [discriminate|]. intros (o & [= <-] & H). rewrite Hc in H.
        contradiction.
    + cbn. split; [intros _; exists oid; now rewrite Hc | reflexivity].
  - split; [discriminate|]. intros (o & H & _). discriminate.
Qed.


(** C1. An update whose body gives all eight model fields, sent for an
    existing record: afterwards the record, still stored under the same
    identifier, holds for each of the eight fields exactly the value the body
    gave; every other field of the document, and every other document, is as
    before.  The handler answers either with the record made of the supplied
    values and the unchanged identifier, or with the 404 of an update that
    changed nothing. *)
Theorem update_appointment_full_replacement
    (c : gmap N (gmap string value)) appointment_id
    (body : gmap string value) oid (doc : gmap string value) :
  (forall k, k ∈ field_names -> is_Some (body !! k)) ->
  is_Some (AppointmentBase_validate body) ->
  ObjectId_of_str appointment_id = Some oid ->
  c !! oid = Some doc ->
  exists doc',
    snd (serve (PUT_appointment appointment_id body) c) !! oid = Some doc'
    /\ (forall k, k ∈ field_names -> doc' !! k = body !! k)
    /\ (forall k, k ∉ field_names -> doc' !! k = doc !! k)
    /\ (forall oid', oid' <> oid ->
        snd (serve (PUT_appointment appointment_id body) c) !! oid' = c !! oid')
    /\ ((exists a,
          fst (serve (PUT_appointment appointment_id body) c) = Ok (One a)
          /\ id a = str oid
          /\ AppointmentBase_validate body = Some (base a)
          /\ forall k, k ∈ field_names -> dict (base a) !! k = body !! k)
        \/ (fst (serve (PUT_appointment appointment_id body) c)
            = Error 404 "Appointment not found"
            /\ doc' = doc)).
Proof.
  intros Hall [a Hv] Hid Hc.
  exists (set_fields (dict a) doc).
  cbn [serve]. rewrite snd_with_body, Hv.
  rewrite (update_appointment_store _ _ _ _ _ Hid Hc).
  split; [apply lookup_insert_eq|].
  split.
  { intros k Hk. rewrite set_fields_lookup_field by exact Hk.
    apply dict_of_body; auto. }
  split; [intros k Hk; now apply set_fields_lookup_other|].
  split; [intros oid' Hne; now apply lookup_insert_ne|].
  unfold with_body. rewrite Hv. unfold respond.
  destruct (update_appointment_result appointment_id a c oid doc Hid Hc)
    as [[Hr He] | [Hr _]].
  - right. destruct (update_appointment appointment_id a c) as [r c'].
    cbn in Hr. subst r. cbn. split; [reflexivity | exact He].
  - left. destruct (update_appointment appointment_id a c) as [r c'].
    cbn in Hr. subst r. cbn. eexists. split; [reflexivity|].
    cbn. split; [reflexivity|]. split; [reflexivity|].
    intros k Hk. apply dict_of_body; auto.
Qed.

Lemma update_appointment_full_replacement_witness :
  exists doc',
    snd (serve (PUT_appointment Sample.key_str Sample.followup_body)
           Sample.one_pending) !! Sample.key = Some doc'
    /\ doc' !! "status"%string = Some (VStr "Approved")
    /\ doc' !! "name"%string = Some (VStr "B").
Proof.
  destruct (update_appointment_full_replacement Sample.one_pending
              Sample.key_str Sample.followup_body Sample.key
              (dict Sample.intro))
    as (doc' & Hd & Hf & _).
  - intros k Hk. split_fields Hk; eexists; reflexivity.
  - eexists. reflexivity.
  - reflexivity.
  - reflexivity.
  - exists doc'. split; [exact Hd|].
    split; rewrite Hf by (unfold field_names; set_solver); reflexivity.
Defined.

(** The claim C2 as first written: [update_appointment] fails with the
    404 exactly when the store reports zero modified documents.  It does not
    hold for an identifier [ObjectId] refuses: the handler answers 404
    without [update_one] having been called, so without any report. *)
Lemma update_appointment_not_found_unreported :
  ~ (fst (update_appointment "not-an-object-id" Sample.intro Sample.one_pending)
     = inl (HTTPException 404 "Appointment not found")
     <-> reported_modified_count "not-an-object-id" (dict Sample.intro)
           Sample.one_pending = Some 0).
Proof.
  intros [H _]. specialize (H eq_refl). discriminate H.
Qed.

(** C2, amended. [update_appointment] fails with the 404 whenever the
    store reports zero modified documents, and also when the identifier is
    malformed, in which case the store is never asked and reports nothing.
    In particular it answers 404 when no document has the identifier, and
    also when every value of the payload equals the value the record already
    holds; in both cases the store's report is zero modified documents. *)
Theorem update_appointment_not_found
    (c : gmap N (gmap string value)) appointment_id (appointment : AppointmentCreate) :
  (reported_modified_count appointment_id (dict appointment) c = Some 0 ->
   fst (update_appointment appointment_id appointment c)
   = inl (HTTPException 404 "Appointment not found"))
  /\ (ObjectId_of_str appointment_id = None ->
      fst (update_appointment appointment_id appointment c)
      = inl (HTTPException 404 "Appointment not found")
      /\ reported_modified_count appointment_id (dict appointment) c = None)
  /\ (forall oid, ObjectId_of_str appointment_id = Some oid -> c !! oid = None ->
      fst (update_appointment appointment_id appointment c)
      = inl (HTTPException 404 "Appointment not found")
      /\ reported_modified_count appointment_id (dict appointment) c = Some 0)
  /\ (forall oid doc,
      ObjectId_of_str appointment_id = Some oid -> c !! oid = Some doc ->
      (forall k, k ∈ field_names -> doc !! k = dict appointment !! k) ->
      fst (update_appointment appointment_id appointment c)
      = inl (HTTPException 404 "Appointment not found")
      /\ reported_modified_count appointment_id (dict appointment) c = Some 0).
Proof.
  assert (Hzero :
    reported_modified_count appointment_id (dict appointment) c = Some 0 ->
    fst (update_appointment appointment_id appointment c) = inl NotFound).
  { intros H. apply reported_modified_count_zero in H as (oid & Hid & H).
    rewrite update_appointment_eq, Hid.
    destruct (c !! oid) as [doc|]; [|reflexivity].
    rewrite decide_True by exact H. reflexivity. }
  split; [exact Hzero|]. split; [|split].
  - intros Hid. split.
    + rewrite update_appointment_eq, Hid. reflexivity.
    + unfold reported_modified_count. now rewrite Hid.
  - intros oid Hid Hc.
    assert (H0 : reported_modified_count appointment_id (dict appointment) c
                 = Some 0).
    { apply reported_modified_count_zero. exists oid. now rewrite Hc. }
    split; [now apply Hzero | exact H0].
  - intros oid doc Hid Hc Hsame.
    assert (H0 : reported_modified_count appointment_id (dict appointment) c
                 = Some 0).
    { apply reported_modified_count_zero. exists oid. rewrite Hc.
      split; [exact Hid|]. apply map_eq. intros k.
      destruct (decide (k ∈ field_names)) as [Hk|Hk].
      - rewrite set_fields_lookup_field by exact Hk. symmetry. now apply Hsame.
      - now apply set_fields_lookup_other. }
    split; [now apply Hzero | exact H0].
Qed.

(** C10. An update for an existing record whose body leaves out the
    status, or the meeting link: the model fills the default in before the
    write, so the stored status becomes "Pending", and the stored meeting
    link [None], whatever they were. *)
Theorem update_appointment_writes_defaults
    (c : gmap N (gmap string value)) appointment_id
    (body : gmap string value) oid (doc : gmap string value) :
  is_Some (AppointmentBase_validate body) ->
  ObjectId_of_str appointment_id = Some oid ->
  c !! oid = Some doc ->
  exists doc',
    snd (serve (PUT_appointment appointment_id body) c) !! oid = Some doc'
    /\ (body !! "status"%string = None ->
        doc' !! "status"%string = Some (VStr "Pending"))
    /\ (body !! "zoom_link"%string = None ->
        doc' !! "zoom_link"%string = Some VNone).
Proof.
  intros [a Hv] Hid Hc.
  exists (set_fields (dict a) doc).
  cbn [serve]. rewrite snd_with_body, Hv.
  rewrite (update_appointment_store _ _ _ _ _ Hid Hc).
  split; [apply lookup_insert_eq|].
  destruct (validate_inv _ _ Hv) as (_ & _ & _ & _ & _ & _ & Hst & Hz).
  unfold optional_str in Hst, Hz.
  split; intros Hb; rewrite Hb in *;
    (rewrite set_fields_lookup_field by (unfold field_names; set_solver)).
  - change (dict a !! "status"%string) with (Some (optional_value (status a))).
    now rewrite Hst.
  - change (dict a !! "zoom_link"%string) with (Some (optional_value (zoom_link a))).
    now rewrite Hz.
Qed.

(** The approved record of [Sample.one_approved], updated with a body that
    does not restate the status, is "Pending" again. *)
Lemma update_appointment_writes_defaults_witness :
  exists doc',
    snd (serve (PUT_appointment Sample.key_str Sample.intro_body)
           Sample.one_approved) !! Sample.key = Some doc'
    /\ doc' !! "status"%string = Some (VStr "Pending")
    /\ doc' !! "zoom_link"%string = Some VNone.
Proof.
  destruct (update_appointment_writes_defaults Sample.one_approved
              Sample.key_str Sample.intro_body Sample.key
              (<["status"%string := VStr "Approved"]> (dict Sample.intro)))
    as (doc' & Hd & Hs & Hz).
  - eexists. reflexivity.
  - reflexivity.
  - reflexivity.
  - exists doc'. split; [exact Hd|].
    split; [apply Hs | apply Hz]; reflexivity.
Defined.

(** ** Approve and set the meeting link: one field is set *)

Lemma set_fields_singleton k v (doc : gmap string value) :
  set_fields {[ k := v ]} doc = <[k := v]> doc.
Proof. unfold set_fields. symmetry. apply insert_union_singleton_l. Qed.

Lemma set_fields_singleton_same k v (doc : gmap string value) :
  set_fields {[ k := v ]} doc = doc <-> doc !! k = Some v.
Proof.
  rewrite set_fields_singleton. split.
  - intros H. rewrite <- H. apply lookup_insert_eq.
  - apply insert_id.
Qed.





(** ** Create *)

(** C3. A post whose body has the six required fields and no status,
    sent when the drawn key is free: the handler returns a record with the
    six values it was given, status "Pending", no meeting link when the body
    had none, and as identifier the 24-digit (so non-empty) string of the key
    under which the store now holds the record. *)
Theorem create_appointment_defaults
    seed (body : gmap string value) (c : gmap N (gmap string value)) n e s d t tp :
  body !! "name"%string = Some (VStr n) ->
  body !! "email"%string = Some (VStr e) ->
  body !! "service"%string = Some (VStr s) ->
  body !! "date"%string = Some (VStr d) ->
  body !! "time"%string = Some (VStr t) ->
  body !! "topic"%string = Some (VStr tp) ->
  body !! "status"%string = None ->
  c !! ObjectId_generate seed = None ->
  exists a,
    fst (serve (POST_appointments seed body) c) = Ok (One a)
    /\ status (base a) = Some "Pending"%string
    /\ (body !! "zoom_link"%string = None -> zoom_link (base a) = None)
    /\ (name (base a), email (base a), service (base a),
        date (base a), time (base a), topic (base a)) = (n, e, s, d, t, tp)
    /\ id a <> EmptyString
    /\ String.length (id a) = 24%nat
    /\ id a = str (ObjectId_generate seed)
    /\ snd (serve (POST_appointments seed body) c) !! ObjectId_generate seed
       = Some (dict (base a)).
Proof.
  intros Hn He Hs Hd Ht Htp Hst Hfresh.
  cbn [serve]. unfold with_body, AppointmentBase_validate, required_str.
  rewrite Hn, He, Hs, Hd, Ht, Htp. unfold respond.
  rewrite create_appointment_eq, Hfresh. cbn [fst snd].
  eexists. split; [reflexivity|]. cbn [base id status zoom_link name email
    service date time topic].
  unfold optional_str. rewrite Hst.
  split; [reflexivity|].
  split; [intros ->; reflexivity|].
  split; [reflexivity|].
  split; [apply str_nonempty|].
  split; [apply length_to_hex|].
  split; [reflexivity|].
  apply lookup_insert_eq.
Qed.

Lemma create_appointment_defaults_witness :
  exists a,
    fst (serve (POST_appointments 7 Sample.intro_body) ∅) = Ok (One a)
    /\ status (base a) = Some "Pending"%string
    /\ zoom_link (base a) = None
    /\ id a = "000000000000000000000007"%string.
Proof.
  destruct (create_appointment_defaults 7 Sample.intro_body ∅
              "A" "a@x.com" "Consult" "2024-01-01" "10:00" "Intro")
    as (a & Hr & Hs & Hz & _ & _ & _ & Hi & _); try reflexivity.
  exists a. split; [exact Hr|]. split; [exact Hs|].
  split; [apply Hz; reflexivity | exact Hi].
Defined.

(** ** The collection holds appointments only *)

Lemma validate_insert_optional k v (doc : gmap string value) :
  k = "status"%string \/ k = "zoom_link"%string ->
  is_Some (AppointmentBase_validate doc) ->
  is_Some (AppointmentBase_validate (<[k := v]> doc)).
Proof.
  intros Hk [b Hb]. apply validate_inv in Hb.
  destruct Hb as (Hn & He & Hs & Hd & Ht & Htp & _).
  unfold AppointmentBase_validate, required_str.
  rewrite !lookup_insert_ne by (destruct Hk; subst k; discriminate).
  rewrite Hn, He, Hs, Hd, Ht, Htp. eexists. reflexivity.
Qed.

Lemma serve_appointments_only r (c : gmap N (gmap string value)) :
  appointments_only c -> appointments_only (snd (serve r c)).
Proof.
  unfold appointments_only. intros Hc.
  destruct r as [seed body| |i|i body|i|i|i z]; cbn [serve].
  - rewrite snd_with_body. destruct (AppointmentBase_validate body) as [a|]; [|exact Hc].
    rewrite create_appointment_eq.
    destruct (c !! ObjectId_generate seed); [exact Hc|].
    cbn. apply map_Forall_insert_2; [|exact Hc].
    rewrite validate_dict. eauto.
  - now rewrite snd_respond, get_appointments_store.
  - now rewrite snd_respond, get_appointment_eq.
  - rewrite snd_with_body. destruct (AppointmentBase_validate body) as [a|]; [|exact Hc].
    rewrite update_appointment_eq.
    destruct (ObjectId_of_str i) as [o|]; [|exact Hc].
    destruct (c !! o) as [doc|] eqn:Ho; [|exact Hc].
    destruct (decide _); [exact Hc|].
    cbn. apply map_Forall_insert_2; [|exact Hc].
    rewrite validate_set_fields. eauto.
  - rewrite snd_respond, delete_appointment_eq.
    destruct (ObjectId_of_str i) as [o|]; [|exact Hc].
    destruct (c !! o) eqn:Ho; [|exact Hc].
    cbn. now apply map_Forall_delete.
  - rewrite snd_respond, approve_appointment_eq.
    destruct (ObjectId_of_str i) as [o|]; [|exact Hc].
    destruct (c !! o) as [doc|] eqn:Ho; [|exact Hc].
    cbn zeta. destruct (decide _); [exact Hc|].
    cbn. apply map_Forall_insert_2; [|exact Hc].
    rewrite set_fields_singleton. apply validate_insert_optional; [now left|].
    exact (Hc o doc Ho).
  - rewrite snd_respond, set_zoom_link_eq.
    destruct (ObjectId_of_str i) as [o|]; [|exact Hc].
    destruct (c !! o) as [doc|] eqn:Ho; [|exact Hc].
    cbn zeta. destruct (decide _); [exact Hc|].
    cbn. apply map_Forall_insert_2; [|exact Hc].
    rewrite set_fields_singleton. apply validate_insert_optional; [now right|].
    exact (Hc o doc Ho).
Qed.

(** Every collection the service builds from an empty one holds
    appointments only. *)
Lemma reachable_appointments_only (c : gmap N (gmap string value)) :
  reachable c -> appointments_only c.
Proof.
  intros [rs ->]. unfold serve_all.
  assert (H : forall c0 : gmap N (gmap string value), appointments_only c0 ->
            appointments_only (foldl (fun c r => snd (serve r c)) c0 rs)).
  { induction rs as [|r rs IH]; intros c0 H0; [exact H0|].
    cbn. apply IH. now apply serve_appointments_only. }
  apply H. apply map_Forall_empty.
Qed.

(** ** List *)

(** Over a collection of appointments the list handler returns one record
    per document, and nothing else. *)
Lemma get_appointments_all (c : gmap N (gmap string value)) :
  appointments_only c ->
  exists l,
    get_appointments c = (inr l, c)
    /\ length l = size c
    /\ (forall oid doc, c !! oid = Some doc ->
        exists b, AppointmentBase_validate doc = Some b
                  /\ {| base := b; id := str oid |} ∈ l)
    /\ (forall a, a ∈ l ->
        exists oid doc, c !! oid = Some doc /\ id a = str oid
                        /\ AppointmentBase_validate doc = Some (base a)).
Proof.
  intros Hc. rewrite get_appointments_eq.
  set (f := fun doc : N * gmap string value => Appointment_validate (str doc.1) doc.2).
  assert (Hsome : is_Some (mapM f (map_to_list c))).
  { apply mapM_is_Some, Forall_forall. intros [oid doc] Hin.
    apply elem_of_map_to_list in Hin. destruct (Hc oid doc Hin) as [b Hb].
    unfold f, Appointment_validate. cbn. rewrite Hb. eauto. }
  destruct Hsome as [l Hl]. rewrite Hl. exists l.
  apply mapM_Some in Hl.
  split; [reflexivity|]. split.
  { rewrite <- (Forall2_length _ _ _ Hl). apply length_map_to_list. }
  split.
  - intros oid doc Hd. apply elem_of_map_to_list in Hd.
    apply list_elem_of_lookup in Hd as [i Hi].
    destruct (Forall2_lookup_l _ _ _ _ _ Hl Hi) as (a & Ha & Hf).
    unfold f, Appointment_validate in Hf. cbn in Hf.
    destruct (AppointmentBase_validate doc) as [b|]; [|discriminate].
    injection Hf as <-. exists b. split; [reflexivity|].
    apply list_elem_of_lookup. eauto.
  - intros a Ha. apply list_elem_of_lookup in Ha as [i Hi].
    destruct (Forall2_lookup_r _ _ _ _ _ Hl Hi) as ([oid doc] & Hd & Hf).
    unfold f, Appointment_validate in Hf. cbn in Hf.
    destruct (AppointmentBase_validate doc) as [b|] eqn:Hb; [|discriminate].
    injection Hf as <-. exists oid, doc. cbn.
    split; [|split; [reflexivity | exact Hb]].
    apply elem_of_map_to_list, list_elem_of_lookup. eauto.
Qed.

Lemma create_all_cons seed (ap : AppointmentBase) posts
    (c : gmap N (gmap string value)) :
  create_all ((seed, ap) :: posts) c =
  match c !! ObjectId_generate seed with
  | Some _ => (inl DuplicateKeyError, c)
  | None =>
      match create_all posts (<[ObjectId_generate seed := dict ap]> c) with
      | (inr l, c') =>
          (inr ({| base := ap; id := str (ObjectId_generate seed) |} :: l), c')
      | (inl e, c') => (inl e, c')
      end
  end.
Proof.
  cbn [create_all]. unfold bind. rewrite create_appointment_eq.
  destruct (c !! ObjectId_generate seed); [reflexivity|].
  destruct (create_all posts _) as [[e|l] c']; reflexivity.
Qed.

(** What a run of successful posts leaves behind. *)
Lemma create_all_store posts :
  forall (c : gmap N (gmap string value)) created,
    fst (create_all posts c) = inr created ->
    c ⊆ snd (create_all posts c)
    /\ size (snd (create_all posts c)) = (size c + length posts)%nat
    /\ length created = length posts
    /\ (appointments_only c -> appointments_only (snd (create_all posts c)))
    /\ (forall a, a ∈ created ->
        exists oid, id a = str oid
                    /\ snd (create_all posts c) !! oid = Some (dict (base a))).
Proof.
  induction posts as [|[seed ap] posts IH]; intros c created.
  - cbn. intros [= <-].
    split; [reflexivity|]. split; [lia|]. split; [reflexivity|].
    split; [auto|]. intros a Ha. apply elem_of_nil in Ha. destruct Ha.
  - rewrite create_all_cons.
    destruct (c !! ObjectId_generate seed) eqn:Hfresh; [discriminate|].
    set (oid := ObjectId_generate seed) in *.
    set (c1 := <[oid := dict ap]> c).
    specialize (IH c1).
    destruct (create_all posts c1) as [[e|l] c2]; [discriminate|].
    cbn [fst snd ret] in *. intros [= <-].
    destruct (IH l eq_refl) as (Hsub & Hsize & Hlen & Hval & Hmem).
    assert (Hc1 : c ⊆ c1) by now apply insert_subseteq.
    split; [etrans; [exact Hc1 | exact Hsub]|].
    split.
    { rewrite Hsize. unfold c1. rewrite map_size_insert_None by exact Hfresh.
      cbn [length]. lia. }
    split; [cbn [length]; now rewrite Hlen|].
    split.
    { intros Hc. apply Hval. unfold c1, appointments_only.
      apply map_Forall_insert_2; [|exact Hc]. rewrite validate_dict. eauto. }
    intros a Ha. apply elem_of_cons in Ha as [-> | Ha]; [|now apply Hmem].
    exists oid. split; [reflexivity|]. cbn [base].
    apply (lookup_weaken c1); [apply lookup_insert_eq | exact Hsub].
Qed.

(** C9. After any run of successful posts on a collection of
    appointments, the list handler returns the whole collection: one record
    for each stored document and none besides, so as many records as there
    are documents, hence at least as many as there were posts, and every
    record a post returned is in the list.  Nothing is said of the order. *)
Theorem get_appointments_after_creates
    (c : gmap N (gmap string value)) (posts : list (N * AppointmentBase)) created :
  appointments_only c ->
  fst (create_all posts c) = inr created ->
  exists l,
    get_appointments (snd (create_all posts c))
    = (inr l, snd (create_all posts c))
    /\ (forall oid doc, snd (create_all posts c) !! oid = Some doc ->
        exists a, a ∈ l /\ id a = str oid
                  /\ AppointmentBase_validate doc = Some (base a))
    /\ (forall a, a ∈ l ->
        exists oid doc, snd (create_all posts c) !! oid = Some doc
                        /\ id a = str oid
                        /\ AppointmentBase_validate doc = Some (base a))
    /\ length l = size (snd (create_all posts c))
    /\ length created = length posts
    /\ (length posts <= length l)%nat
    /\ (forall a, a ∈ created -> a ∈ l).
Proof.
  intros Hc Hcreated.
  destruct (create_all_store posts c created Hcreated)
    as (_ & Hsize & Hlen & Hval & Hmem).
  destruct (get_appointments_all _ (Hval Hc)) as (l & Hl & Hn & Hall & Honly).
  exists l. split; [exact Hl|].
  split.
  { intros oid doc Hd. destruct (Hall oid doc Hd) as (b & Hb & Hin).
    eexists. split; [exact Hin|]. split; [reflexivity | exact Hb]. }
  split; [exact Honly|].
  split; [exact Hn|].
  split; [exact Hlen|].
  split; [lia|].
  intros a Ha. destruct (Hmem a Ha) as (oid & Hid & Hd).
  destruct (Hall oid _ Hd) as (b & Hb & Hin).
  rewrite validate_dict in Hb. injection Hb as <-.
  rewrite <- Hid in Hin. now destruct a.
Qed.

Lemma get_appointments_after_creates_witness :
  exists l,
    fst (get_appointments
           (snd (create_all [(8, Sample.intro); (9, Sample.followup)]
                   Sample.one_approved))) = inr l
    /\ (2 <= length l)%nat
    /\ {| base := Sample.followup; id := "000000000000000000000009" |} ∈ l.
Proof.
  destruct (get_appointments_after_creates Sample.one_approved
              [(8, Sample.intro); (9, Sample.followup)]
              [ {| base := Sample.intro; id := "000000000000000000000008" |};
                {| base := Sample.followup; id := "000000000000000000000009" |} ])
    as (l & Hl & _ & _ & _ & _ & Hlen & Hin).
  - apply map_Forall_singleton. eexists. reflexivity.
  - reflexivity.
  - exists l. rewrite Hl. split; [reflexivity|]. split; [exact Hlen|].
    apply Hin. set_solver.
Defined.


(** * Further properties of the handlers *)

(** ** Identifiers *)







(** ** The model as a normal form of the body *)

(** X2. What the model keeps of a body it accepts: every declared field
    the body gives goes into [dict()] as given, keys the model does not
    declare are dropped, an omitted status becomes "Pending" and an omitted
    meeting link [None]; and building the model again from its own [dict()]
    gives the same model, so that step cannot raise. *)
Theorem dict_normalises_body (body : gmap string value) (a : AppointmentBase) :
  AppointmentBase_validate body = Some a ->
  AppointmentBase_validate (dict a) = Some a
  /\ (forall k, k ∈ field_names -> is_Some (body !! k) -> dict a !! k = body !! k)
  /\ (forall k, k ∉ field_names -> dict a !! k = None)
  /\ (body !! "status"%string = None ->
      dict a !! "status"%string = Some (VStr "Pending"))
  /\ (body !! "zoom_link"%string = None ->
      dict a !! "zoom_link"%string = Some VNone).
Proof.
  intros Hv.
  split; [apply validate_dict|].
  split; [intros k Hk Hs; now apply dict_of_body|].
  split; [intros k Hk; now apply dict_lookup_other|].
  destruct (validate_inv _ _ Hv) as (_ & _ & _ & _ & _ & _ & Hst & Hz).
  unfold optional_str in Hst, Hz.
  split; intros Hb; rewrite Hb in *.
  - change (dict a !! "status"%string) with (Some (optional_value (status a))).
    now rewrite Hst.
  - change (dict a !! "zoom_link"%string) with (Some (optional_value (zoom_link a))).
    now rewrite Hz.
Qed.

Lemma dict_normalises_body_witness :
  dict Sample.intro !! "status"%string = Some (VStr "Pending")
  /\ dict Sample.intro !! "zoom_link"%string = Some VNone.
Proof.
  destruct (dict_normalises_body Sample.intro_body Sample.intro)
    as (_ & _ & _ & Hs & Hz); [reflexivity|].
  split; [apply Hs | apply Hz]; reflexivity.
Defined.

(** ** Create *)

(** X3. [create_appointment] with the drawn key free returns the payload
    with the key's string as identifier and adds that one document: the
    collection grows by one and every document it had is still there,
    unchanged; building the [Appointment] from the inserted document does not
    fail.  With the key taken the insert is refused with
    [DuplicateKeyError], which leaves the handler, and nothing is written. *)
Theorem create_appointment_outcomes
    seed (appointment : AppointmentCreate) (c : gmap N (gmap string value)) :
  (c !! ObjectId_generate seed = None ->
   fst (create_appointment seed appointment c)
   = inr {| base := appointment; id := str (ObjectId_generate seed) |}
   /\ size (snd (create_appointment seed appointment c)) = S (size c)
   /\ c ⊆ snd (create_appointment seed appointment c))
  /\ (is_Some (c !! ObjectId_generate seed) ->
      create_appointment seed appointment c = (inl DuplicateKeyError, c)).
Proof.
  rewrite create_appointment_eq.
  destruct (c !! ObjectId_generate seed) as [doc|] eqn:Hc; cbn [fst snd].
  - split; [discriminate | reflexivity].
  - split.
    + intros _. split; [reflexivity|].
      split; [now apply map_size_insert_None | now apply insert_subseteq].
    + intros [? [=]].
Qed.

(** X4. A successful create changes the answer of no fetch that succeeded
    before it: whatever identifier returned a record still returns that
    record. *)
Theorem create_appointment_keeps_records
    seed (appointment : AppointmentCreate) (c : gmap N (gmap string value))
    created appointment_id a :
  fst (create_appointment seed appointment c) = inr created ->
  fst (get_appointment appointment_id c) = inr a ->
  fst (get_appointment appointment_id
         (snd (create_appointment seed appointment c))) = inr a.
Proof.
  rewrite create_appointment_eq, !get_appointment_eq.
  destruct (c !! ObjectId_generate seed) eqn:Hfresh; [discriminate|].
  cbn [fst snd]. intros _.
  destruct (ObjectId_of_str appointment_id) as [oid|]; [|discriminate].
  destruct (c !! oid) as [doc|] eqn:Hc; [|discriminate].
  rewrite lookup_insert_ne by congruence. now rewrite Hc.
Qed.

Lemma create_appointment_keeps_records_witness :
  fst (get_appointment Sample.key_str
         (snd (create_appointment 8 Sample.followup Sample.one_pending)))
  = inr {| base := Sample.intro; id := Sample.key_str |}.
Proof.
  apply (create_appointment_keeps_records 8 Sample.followup Sample.one_pending
           {| base := Sample.followup; id := "000000000000000000000008" |});
    reflexivity.
Defined.

(** ** Failing and reading handlers write nothing *)

(** X5. No handler that raises has written: whenever [create_appointment],
    [update_appointment], [delete_appointment], [approve_appointment] or
    [set_zoom_link] ends in an exception, the collection is what it was
    before the call. *)
Theorem handlers_raise_without_writing (c : gmap N (gmap string value)) :
  (forall seed appointment e,
     fst (create_appointment seed appointment c) = inl e ->
     snd (create_appointment seed appointment c) = c)
  /\ (forall i appointment e,
      fst (update_appointment i appointment c) = inl e ->
      snd (update_appointment i appointment c) = c)
  /\ (forall i e,
      fst (delete_appointment i c) = inl e -> snd (delete_appointment i c) = c)
  /\ (forall i e,
      fst (approve_appointment i c) = inl e -> snd (approve_appointment i c) = c)
  /\ (forall i z e,
      fst (set_zoom_link i z c) = inl e -> snd (set_zoom_link i z c) = c).
Proof.
  split; [|split; [|split; [|split]]].
  - intros seed ap e. rewrite create_appointment_eq.
    destruct (c !! ObjectId_generate seed); [reflexivity | discriminate].
  - intros i ap e. rewrite update_appointment_eq.
    destruct (ObjectId_of_str i) as [oid|]; [|reflexivity].
    destruct (c !! oid); [|reflexivity].
    destruct (decide _); [reflexivity | discriminate].
  - intros i e. rewrite delete_appointment_eq.
    destruct (ObjectId_of_str i) as [oid|]; [|reflexivity].
    destruct (c !! oid); [discriminate | reflexivity].
  - intros i e. rewrite approve_appointment_eq.
    destruct (ObjectId_of_str i) as [oid|]; [|reflexivity].
    destruct (c !! oid); [|reflexivity].
    cbn zeta. destruct (decide _); [reflexivity | discriminate].
  - intros i z e. rewrite set_zoom_link_eq.
    destruct (ObjectId_of_str i) as [oid|]; [|reflexivity].
    destruct (c !! oid); [|reflexivity].
    cbn zeta. destruct (decide _); [reflexivity | discriminate].
Qed.

(** X6. The two reading handlers never write, whether they return or
    raise. *)
Theorem reads_write_nothing (c : gmap N (gmap string value)) appointment_id :
  snd (get_appointment appointment_id c) = c /\ snd (get_appointments c) = c.
Proof.
  split; [now rewrite get_appointment_eq | apply get_appointments_store].
Qed.

(** ** The store after an update by identifier *)

(** The three updating handlers change the collection by one [$set] on the
    document under the key, when there is one. *)
Lemma update_appointment_alter appointment_id (a : AppointmentCreate)
    (c : gmap N (gmap string value)) :
  snd (update_appointment appointment_id a c) =
  match ObjectId_of_str appointment_id with
  | Some oid => alter (set_fields (dict a)) oid c
  | None => c
  end.
Proof.
  rewrite update_appointment_eq.
  destruct (ObjectId_of_str appointment_id) as [oid|]; [|reflexivity].
  rewrite alter_alt. destruct (c !! oid) as [doc|] eqn:Hc; [|reflexivity].
  destruct (decide _) as [E|]; [|reflexivity].
  cbn. rewrite E. symmetry. now apply insert_id.
Qed.

Lemma approve_appointment_alter appointment_id (c : gmap N (gmap string value)) :
  snd (approve_appointment appointment_id c) =
  match ObjectId_of_str appointment_id with
  | Some oid => alter (insert "status"%string (VStr "Approved")) oid c
  | None => c
  end.
Proof.
  rewrite approve_appointment_eq.
  destruct (ObjectId_of_str appointment_id) as [oid|]; [|reflexivity].
  rewrite alter_alt. destruct (c !! oid) as [doc|] eqn:Hc; [|reflexivity].
  cbn zeta. rewrite set_fields_singleton.
  destruct (decide _) as [E|]; [|reflexivity].
  cbn. rewrite E. symmetry. now apply insert_id.
Qed.

Lemma set_zoom_link_alter appointment_id zoom_link (c : gmap N (gmap string value)) :
  snd (set_zoom_link appointment_id zoom_link c) =
  match ObjectId_of_str appointment_id with
  | Some oid => alter (insert "zoom_link"%string (VStr zoom_link)) oid c
  | None => c
  end.
Proof.
  rewrite set_zoom_link_eq.
  destruct (ObjectId_of_str appointment_id) as [oid|]; [|reflexivity].
  rewrite alter_alt. destruct (c !! oid) as [doc|] eqn:Hc; [|reflexivity].
  cbn zeta. rewrite set_fields_singleton.
  destruct (decide _) as [E|]; [|reflexivity].
  cbn. rewrite E. symmetry. now apply insert_id.
Qed.

(** X7. No upsert: [update_appointment], [approve_appointment] and
    [set_zoom_link] never add or remove a document; the identifiers in the
    collection are the same after the call as before, for every identifier
    sent, existing or not. *)
Theorem updates_keep_identifiers (c : gmap N (gmap string value)) appointment_id :
  (forall appointment,
     dom (snd (update_appointment appointment_id appointment c)) = dom c)
  /\ dom (snd (approve_appointment appointment_id c)) = dom c
  /\ (forall zoom_link,
      dom (snd (set_zoom_link appointment_id zoom_link c)) = dom c).
Proof.
  split; [|split].
  - intros a. rewrite update_appointment_alter.
    destruct (ObjectId_of_str appointment_id); [apply dom_alter_L | reflexivity].
  - rewrite approve_appointment_alter.
    destruct (ObjectId_of_str appointment_id); [apply dom_alter_L | reflexivity].
  - intros z. rewrite set_zoom_link_alter.
    destruct (ObjectId_of_str appointment_id); [apply dom_alter_L | reflexivity].
Qed.

(** X8. A handler called with an identifier touches at most the document
    under that identifier's key: every document under another key is the
    same after [update_appointment], [delete_appointment],
    [approve_appointment] and [set_zoom_link] as before. *)
Theorem handlers_touch_one_document
    (c : gmap N (gmap string value)) appointment_id oid' :
  ObjectId_of_str appointment_id <> Some oid' ->
  (forall appointment,
     snd (update_appointment appointment_id appointment c) !! oid' = c !! oid')
  /\ snd (delete_appointment appointment_id c) !! oid' = c !! oid'
  /\ snd (approve_appointment appointment_id c) !! oid' = c !! oid'
  /\ (forall zoom_link,
      snd (set_zoom_link appointment_id zoom_link c) !! oid' = c !! oid').
Proof.
  intros Hne. split; [|split; [|split]].
  - intros a. rewrite update_appointment_alter.
    destruct (ObjectId_of_str appointment_id) as [oid|]; [|reflexivity].
    apply lookup_alter_ne. congruence.
  - rewrite delete_appointment_eq.
    destruct (ObjectId_of_str appointment_id) as [oid|]; [|reflexivity].
    destruct (c !! oid); [|reflexivity].
    cbn. apply lookup_delete_ne. congruence.
  - rewrite approve_appointment_alter.
    destruct (ObjectId_of_str appointment_id) as [oid|]; [|reflexivity].
    apply lookup_alter_ne. congruence.
  - intros z. rewrite set_zoom_link_alter.
    destruct (ObjectId_of_str appointment_id) as [oid|]; [|reflexivity].
    apply lookup_alter_ne. congruence.
Qed.

Lemma handlers_touch_one_document_witness :
  snd (delete_appointment Sample.stray_key_str Sample.with_stray) !! Sample.key
  = Sample.with_stray !! Sample.key.
Proof.
  apply (handlers_touch_one_document Sample.with_stray Sample.stray_key_str
           Sample.key).
  vm_compute. discriminate.
Defined.

(** X9. Approving and setting the meeting link commute: in either order,
    for any two identifiers, they leave the same collection. *)
Theorem approve_set_zoom_link_commute
    (c : gmap N (gmap string value)) i j zoom_link :
  snd (approve_appointment i (snd (set_zoom_link j zoom_link c)))
  = snd (set_zoom_link j zoom_link (snd (approve_appointment i c))).
Proof.
  rewrite !approve_appointment_alter, !set_zoom_link_alter.
  destruct (ObjectId_of_str i) as [oi|], (ObjectId_of_str j) as [oj|];
    try reflexivity.
  destruct (decide (oi = oj)) as [->|Hne].
  - rewrite 2!alter_alter_eq. apply alter_ext. intros doc _.
    cbn. apply insert_insert_ne. discriminate.
  - now apply alter_alter_ne.
Qed.

(** ** Requests in sequence *)

Lemma set_fields_twice (fields doc : gmap string value) :
  set_fields fields (set_fields fields doc) = set_fields fields doc.
Proof.
  unfold set_fields. rewrite (assoc_L (∪)). now rewrite (idemp_L (∪)).
Qed.

(** X10. After [update_appointment] on an existing record, a fetch by the
    same identifier returns the payload of the update with the record's
    identifier, whether the update answered with the record or with the 404
    of an update that changed nothing. *)
Theorem update_then_get
    (c : gmap N (gmap string value)) appointment_id
    (appointment : AppointmentCreate) oid (doc : gmap string value) :
  ObjectId_of_str appointment_id = Some oid ->
  c !! oid = Some doc ->
  fst (get_appointment appointment_id
         (snd (update_appointment appointment_id appointment c)))
  = inr {| base := appointment; id := str oid |}.
Proof.
  intros Hid Hc.
  rewrite (update_appointment_store _ _ _ _ _ Hid Hc), get_appointment_eq, Hid.
  rewrite lookup_insert_eq, validate_set_fields. reflexivity.
Qed.

Lemma update_then_get_witness :
  fst (get_appointment Sample.key_str
         (snd (update_appointment Sample.key_str Sample.followup
                 Sample.one_pending)))
  = inr {| base := Sample.followup; id := Sample.key_str |}.
Proof.
  apply (update_then_get Sample.one_pending Sample.key_str Sample.followup
           Sample.key (dict Sample.intro)); reflexivity.
Defined.

(** X11. Repeating a request that sets fields never succeeds: the same
    [update_appointment], [approve_appointment] or [set_zoom_link] sent a
    second time, straight after the first, answers 404 for every identifier
    and every collection, also when the first one succeeded. *)
Theorem repeated_update_not_found (c : gmap N (gmap string value)) appointment_id :
  (forall appointment,
     fst (update_appointment appointment_id appointment
            (snd (update_appointment appointment_id appointment c)))
     = inl (HTTPException 404 "Appointment not found"))
  /\ fst (approve_appointment appointment_id
            (snd (approve_appointment appointment_id c)))
     = inl (HTTPException 404 "Appointment not found")
  /\ (forall zoom_link,
      fst (set_zoom_link appointment_id zoom_link
             (snd (set_zoom_link appointment_id zoom_link c)))
      = inl (HTTPException 404 "Appointment not found")).
Proof.
  split; [|split].
  - intros a. rewrite update_appointment_alter, update_appointment_eq.
    destruct (ObjectId_of_str appointment_id) as [oid|]; [|reflexivity].
    rewrite lookup_alter_eq. destruct (c !! oid) as [doc|]; [|reflexivity].
    cbn [fmap option_fmap option_map]. rewrite set_fields_twice.
    rewrite decide_True by reflexivity. reflexivity.
  - rewrite approve_appointment_alter, approve_appointment_eq.
    destruct (ObjectId_of_str appointment_id) as [oid|]; [|reflexivity].
    rewrite lookup_alter_eq. destruct (c !! oid) as [doc|]; [|reflexivity].
    cbn [fmap option_fmap option_map]. cbn zeta.
    rewrite set_fields_singleton, insert_insert_eq.
    rewrite decide_True by reflexivity. reflexivity.
  - intros z. rewrite set_zoom_link_alter, set_zoom_link_eq.
    destruct (ObjectId_of_str appointment_id) as [oid|]; [|reflexivity].
    rewrite lookup_alter_eq. destruct (c !! oid) as [doc|]; [|reflexivity].
    cbn [fmap option_fmap option_map]. cbn zeta.
    rewrite set_fields_singleton, insert_insert_eq.
    rewrite decide_True by reflexivity. reflexivity.
Qed.

(** X12. [delete_appointment] never succeeds twice in a row on one
    identifier: the second call answers 404.  A delete that succeeds removes
    one document exactly. *)
Theorem repeated_delete_not_found (c : gmap N (gmap string value)) appointment_id :
  fst (delete_appointment appointment_id
         (snd (delete_appointment appointment_id c)))
  = inl (HTTPException 404 "Appointment not found")
  /\ (forall m, fst (delete_appointment appointment_id c) = inr m ->
      S (size (snd (delete_appointment appointment_id c))) = size c).
Proof.
  rewrite !delete_appointment_eq.
  destruct (ObjectId_of_str appointment_id) as [oid|] eqn:Hid.
  - destruct (c !! oid) as [doc|] eqn:Hc; cbn [fst snd].
    + rewrite lookup_delete_eq. split; [reflexivity|].
      intros m _. rewrite map_size_delete, Hc.
      assert (size c <> 0%nat).
      { intros H0. apply map_size_empty_inv in H0. subst c.
        rewrite lookup_empty in Hc. discriminate. }
      cbn. lia.
    + rewrite Hc. split; [reflexivity | discriminate].
  - cbn [fst snd]. split; [reflexivity | discriminate].
Qed.

(** ** What a fetch shows after approve and set meeting link *)

Lemma validate_insert_status s (doc : gmap string value) (b : AppointmentBase) :
  AppointmentBase_validate doc = Some b ->
  AppointmentBase_validate (<["status"%string := VStr s]> doc)
  = Some {| name := name b; email := email b; service := service b;
            date := date b; time := time b; topic := topic b;
            status := Some s; zoom_link := zoom_link b |}.
Proof.
  intros Hb. apply validate_inv in Hb.
  destruct Hb as (Hn & He & Hs & Hd & Ht & Htp & _ & Hz).
  unfold AppointmentBase_validate, required_str, optional_str.
  rewrite lookup_insert_eq.
  rewrite !lookup_insert_ne by discriminate.
  rewrite Hn, He, Hs, Hd, Ht, Htp. rewrite Hz. reflexivity.
Qed.

Lemma validate_insert_zoom_link z (doc : gmap string value) (b : AppointmentBase) :
  AppointmentBase_validate doc = Some b ->
  AppointmentBase_validate (<["zoom_link"%string := VStr z]> doc)
  = Some {| name := name b; email := email b; service := service b;
            date := date b; time := time b; topic := topic b;
            status := status b; zoom_link := Some z |}.
Proof.
  intros Hb. apply validate_inv in Hb.
  destruct Hb as (Hn & He & Hs & Hd & Ht & Htp & Hst & _).
  unfold AppointmentBase_validate, required_str, optional_str.
  rewrite lookup_insert_eq.
  rewrite !lookup_insert_ne by discriminate.
  rewrite Hn, He, Hs, Hd, Ht, Htp. rewrite Hst. reflexivity.
Qed.

(** X13. A record that could be fetched can be fetched after
    [approve_appointment], and then reads the same except for its status,
    which is "Approved"; this holds whether the approve answered 200 or the
    404 of an approve that changed nothing. *)
Theorem approve_then_get (c : gmap N (gmap string value)) appointment_id a :
  fst (get_appointment appointment_id c) = inr a ->
  fst (get_appointment appointment_id
         (snd (approve_appointment appointment_id c)))
  = inr {| base := {| name := name (base a); email := email (base a);
                      service := service (base a); date := date (base a);
                      time := time (base a); topic := topic (base a);
                      status := Some "Approved"%string;
                      zoom_link := zoom_link (base a) |};
           id := id a |}.
Proof.
  rewrite approve_appointment_alter, !get_appointment_eq. cbn [fst].
  destruct (ObjectId_of_str appointment_id) as [oid|]; [|discriminate].
  rewrite lookup_alter_eq.
  destruct (c !! oid) as [doc|]; [|discriminate].
  destruct (AppointmentBase_validate doc) as [b|] eqn:Hb; [|discriminate].
  intros [= <-]. cbn [fmap option_fmap option_map].
  now rewrite (validate_insert_status _ _ _ Hb).
Qed.

Lemma approve_then_get_witness :
  exists a,
    fst (get_appointment Sample.key_str
           (snd (approve_appointment Sample.key_str Sample.one_pending)))
    = inr a
    /\ status (base a) = Some "Approved"%string
    /\ name (base a) = "A"%string.
Proof.
  eexists. split.
  - apply (approve_then_get Sample.one_pending Sample.key_str
             {| base := Sample.intro; id := Sample.key_str |}).
    reflexivity.
  - split; reflexivity.
Defined.

(** X14. A record that could be fetched can be fetched after
    [set_zoom_link], and then reads the same except for its meeting link,
    which is the string that was sent. *)
Theorem set_zoom_link_then_get
    (c : gmap N (gmap string value)) appointment_id zoom_link a :
  fst (get_appointment appointment_id c) = inr a ->
  fst (get_appointment appointment_id
         (snd (set_zoom_link appointment_id zoom_link c)))
  = inr {| base := {| name := name (base a); email := email (base a);
                      service := service (base a); date := date (base a);
                      time := time (base a); topic := topic (base a);
                      status := status (base a);
                      zoom_link := Some zoom_link |};
           id := id a |}.
Proof.
  rewrite set_zoom_link_alter, !get_appointment_eq. cbn [fst].
  destruct (ObjectId_of_str appointment_id) as [oid|]; [|discriminate].
  rewrite lookup_alter_eq.
  destruct (c !! oid) as [doc|]; [|discriminate].
  destruct (AppointmentBase_validate doc) as [b|] eqn:Hb; [|discriminate].
  intros [= <-]. cbn [fmap option_fmap option_map].
  now rewrite (validate_insert_zoom_link _ _ _ Hb).
Qed.

Lemma set_zoom_link_then_get_witness :
  exists a,
    fst (get_appointment Sample.key_str
           (snd (set_zoom_link Sample.key_str "https://zoom.example/j/1"
                   Sample.one_pending)))
    = inr a
    /\ zoom_link (base a) = Some "https://zoom.example/j/1"%string
    /\ status (base a) = Some "Pending"%string.
Proof.
  eexists. split.
  - apply (set_zoom_link_then_get Sample.one_pending Sample.key_str
             "https://zoom.example/j/1"
             {| base := Sample.intro; id := Sample.key_str |}).
    reflexivity.
  - split; reflexivity.
Defined.

(** ** Documents that are not appointments *)

(** X15. One document that does not build an [Appointment] makes the
    whole list fail: [get_appointments] has no [try], so the
    [ValidationError] leaves the handler, where [get_appointment] on that
    very document turns the same error into its 404. *)
Theorem get_appointments_stray_document
    (c : gmap N (gmap string value)) oid (doc : gmap string value) :
  c !! oid = Some doc ->
  AppointmentBase_validate doc = None ->
  get_appointments c = (inl ValidationError, c)
  /\ (forall appointment_id, ObjectId_of_str appointment_id = Some oid ->
      get_appointment appointment_id c
      = (inl (HTTPException 404 "Appointment not found"), c)).
Proof.
  intros Hc Hv. split.
  - rewrite get_appointments_eq.
    destruct (mapM _ (map_to_list c)) as [l|] eqn:Hl; [|reflexivity].
    exfalso.
    assert (Hs : is_Some (mapM (fun d : N * gmap string value =>
                   Appointment_validate (str d.1) d.2) (map_to_list c)))
      by (rewrite Hl; eauto).
    apply mapM_is_Some_1 in Hs. rewrite Forall_forall in Hs.
    assert (Hin : (oid, doc) ∈ map_to_list c) by now apply elem_of_map_to_list.
    destruct (Hs _ Hin) as [a Ha].
    unfold Appointment_validate in Ha. cbn in Ha. rewrite Hv in Ha.
    discriminate.
  - intros i Hi. rewrite get_appointment_eq, Hi, Hc, Hv. reflexivity.
Qed.

Lemma get_appointments_stray_document_witness :
  get_appointments Sample.with_stray = (inl ValidationError, Sample.with_stray)
  /\ get_appointment Sample.stray_key_str Sample.with_stray
     = (inl (HTTPException 404 "Appointment not found"), Sample.with_stray).
Proof.
  destruct (get_appointments_stray_document Sample.with_stray 9
              {[ "status"%string := VStr "Pending" ]}) as [Hl Hg];
    [reflexivity | reflexivity |].
  split; [exact Hl | apply Hg; reflexivity].
Defined.

(** ** Collections the service has built *)

Lemma serve_keys_canonical r (c : gmap N (gmap string value)) :
  (forall oid, oid ∈ dom c -> oid < ObjectId_modulus) ->
  forall oid, oid ∈ dom (snd (serve r c)) -> oid < ObjectId_modulus.
Proof.
  intros Hc oid.
  destruct r as [seed body| |i|i body|i|i|i z]; cbn [serve].
  - rewrite snd_with_body.
    destruct (AppointmentBase_validate body) as [a|]; [|apply Hc].
    rewrite create_appointment_eq.
    destruct (c !! ObjectId_generate seed); [apply Hc|].
    cbn. rewrite dom_insert_L, elem_of_union, elem_of_singleton.
    intros [-> | H]; [|now apply Hc].
    apply N.mod_lt. discriminate.
  - rewrite snd_respond, get_appointments_store. apply Hc.
  - rewrite snd_respond, get_appointment_eq. apply Hc.
  - rewrite snd_with_body.
    destruct (AppointmentBase_validate body) as [a|]; [|apply Hc].
    rewrite update_appointment_alter.
    destruct (ObjectId_of_str i); [rewrite dom_alter_L|]; apply Hc.
  - rewrite snd_respond, delete_appointment_eq.
    destruct (ObjectId_of_str i) as [o|]; [|apply Hc].
    destruct (c !! o); [|apply Hc].
    cbn. rewrite dom_delete_L, elem_of_difference. intros [H _]. now apply Hc.
  - rewrite snd_respond, approve_appointment_alter.
    destruct (ObjectId_of_str i); [rewrite dom_alter_L|]; apply Hc.
  - rewrite snd_respond, set_zoom_link_alter.
    destruct (ObjectId_of_str i); [rewrite dom_alter_L|]; apply Hc.
Qed.

Lemma reachable_keys_canonical (c : gmap N (gmap string value)) :
  reachable c -> forall oid, oid ∈ dom c -> oid < ObjectId_modulus.
Proof.
  intros [rs ->]. unfold serve_all.
  assert (H : forall c0 : gmap N (gmap string value),
            (forall oid, oid ∈ dom c0 -> oid < ObjectId_modulus) ->
            forall oid, oid ∈ dom (foldl (fun c r => snd (serve r c)) c0 rs) ->
                        oid < ObjectId_modulus).
  { induction rs as [|r rs IH]; intros c0 H0; [exact H0|].
    cbn. apply IH. now apply serve_keys_canonical. }
  apply H. intros oid Hin. rewrite dom_empty_L in Hin.
  now apply not_elem_of_empty in Hin.
Qed.

Lemma str_inj_canonical a b :
  a < ObjectId_modulus -> b < ObjectId_modulus -> str a = str b -> a = b.
Proof.
  intros Ha Hb H. apply (f_equal ObjectId_of_str) in H.
  rewrite !ObjectId_of_str_str, !N.mod_small in H by assumption.
  congruence.
Qed.

Lemma mapM_validate_ids (docs : list (N * gmap string value)) l :
  mapM (fun doc => Appointment_validate (str doc.1) doc.2) docs = Some l ->
  id <$> l = str <$> docs.*1.
Proof.
  intros H. apply mapM_Some in H.
  induction H as [|[oid doc] a docs l Ha _ IH]; [reflexivity|].
  cbn. rewrite IH. f_equal.
  unfold Appointment_validate in Ha. cbn in Ha.
  destruct (AppointmentBase_validate doc); [|discriminate].
  now injection Ha as <-.
Qed.

(** X16. On every collection the service has built from an empty one, by
    whatever requests, the list handler succeeds, returns as many records as
    there are documents, and no two of them carry the same identifier. *)
Theorem get_appointments_reachable (c : gmap N (gmap string value)) :
  reachable c ->
  exists l,
    get_appointments c = (inr l, c)
    /\ length l = size c
    /\ NoDup (id <$> l).
Proof.
  intros Hr.
  destruct (get_appointments_all c (reachable_appointments_only c Hr))
    as (l & Hl & Hlen & _).
  exists l. split; [exact Hl|]. split; [exact Hlen|].
  rewrite get_appointments_eq in Hl.
  destruct (mapM _ (map_to_list c)) as [l'|] eqn:Hm; [|discriminate].
  injection Hl as ->.
  rewrite (mapM_validate_ids _ _ Hm).
  apply NoDup_fmap_2_strong; [|apply NoDup_fst_map_to_list].
  intros a b Ha Hb. apply str_inj_canonical.
  - apply (reachable_keys_canonical c Hr).
    apply list_elem_of_fmap in Ha as ([k d] & -> & Hin).
    apply elem_of_map_to_list in Hin. apply elem_of_dom. eauto.
  - apply (reachable_keys_canonical c Hr).
    apply list_elem_of_fmap in Hb as ([k d] & -> & Hin).
    apply elem_of_map_to_list in Hin. apply elem_of_dom. eauto.
Qed.

Lemma get_appointments_reachable_witness :
  exists l,
    get_appointments
      (serve_all [POST_appointments 7 Sample.intro_body; PUT_approve Sample.key_str] ∅)
    = (inr l, serve_all [POST_appointments 7 Sample.intro_body;
                         PUT_approve Sample.key_str] ∅)
    /\ length l = 1%nat.
Proof.
  destruct (get_appointments_reachable
              (serve_all [POST_appointments 7 Sample.intro_body;
                          PUT_approve Sample.key_str] ∅))
    as (l & Hl & Hlen & _).
  - eexists. reflexivity.
  - exists l. split; [exact Hl|]. rewrite Hlen. reflexivity.
Defined.

(** X17. Creating a record and deleting it by the identifier the create
    returned succeeds and leaves the collection exactly as it was before the
    create. *)
Theorem create_then_delete
    seed (appointment : AppointmentCreate) (c : gmap N (gmap string value)) a :
  fst (create_appointment seed appointment c) = inr a ->
  delete_appointment (id a) (snd (create_appointment seed appointment c))
  = (inr (message "Appointment deleted successfully"), c).
Proof.
  rewrite create_appointment_eq.
  destruct (c !! ObjectId_generate seed) eqn:Hfresh; [discriminate|].
  cbn [fst snd]. intros [= <-]. cbn [id].
  rewrite delete_appointment_eq, ObjectId_of_str_generate, lookup_insert_eq.
  rewrite delete_insert_eq. f_equal. now apply delete_id.
Qed.

Lemma create_then_delete_witness :
  delete_appointment "000000000000000000000008"
    (snd (create_appointment 8 Sample.followup Sample.one_pending))
  = (inr (message "Appointment deleted successfully"), Sample.one_pending).
Proof.
  apply (create_then_delete 8 Sample.followup Sample.one_pending
           {| base := Sample.followup; id := "000000000000000000000008" |}).
  reflexivity.
Defined.
